(** * nomadhub: the worktree helper script and the landing page

    Two artefacts of the repository carry behaviour:

    - [src/utils/create-worktree.sh], a bash file of sixteen lines, which
      can be read with [source] (it leaves through [return]) or run as a
      program (it starts with a [#!/bin/bash] line);
    - [src/app/page.tsx], the [Home] component.

    The script is embedded shallowly: every line becomes a term of a small
    monad [script] whose combinators follow the bash manual for the
    constructs the file uses (simple commands, [if], [||], assignments,
    parameter expansion, the builtins [[], [echo], [cd], [return]).  What
    lies outside the file, that is the programs found on PATH and the
    directory tree, is a [host] taken as a parameter.  Shell options are at
    their defaults (no [errexit], no [nounset]). *)

From Stdlib Require Import ZArith String Ascii List Bool Lia DecimalString.
From stdpp Require Import gmap strings list.
Import ListNotations.
Local Open Scope string_scope.
Local Open Scope Z_scope.
Local Open Scope list_scope.

(** ** A fragment of bash *)

Module Bash.

(** The shell's own state: variables, the positional parameters as the
    file sees them, the directory the shell is in, [$?], and whether the
    file is being read by [source] or run as a program. *)
Record shell : Type := Shell {
  vars : gmap string string;
  params : list string;
  cwd : string;
  last_status : Z;
  sourced : bool
}.

Definition set_last (z : Z) (s : shell) : shell :=
  {| vars := vars s; params := params s; cwd := cwd s; last_status := z;
     sourced := sourced s |}.

Definition set_var (name value : string) (s : shell) : shell :=
  {| vars := <[name := value]> (vars s); params := params s;
     cwd := cwd s; last_status := 0; sourced := sourced s |}.

(** A [cd] that succeeds moves the shell and binds two variables: [OLDPWD]
    takes the value [PWD] had (and loses its own when [PWD] had none), and
    [PWD] takes the new directory. *)
Definition set_cwd (dir : string) (s : shell) : shell :=
  {| vars := <["PWD" := dir]>
               (match vars s !! "PWD" with
                | Some old => <["OLDPWD" := old]> (vars s)
                | None => delete "OLDPWD" (vars s)
                end);
     params := params s; cwd := dir; last_status := 0;
     sourced := sourced s |}.

(** What a program run as a plain process call hands back: its exit status,
    and the text it wrote, which goes to the terminal and not to the shell. *)
Record tool_result : Type := ToolResult {
  exit_code : Z;
  printed : string
}.

(** Where a [cd] arrives: the directory, and whether bash prints its name,
    as it does when the directory was found through [CDPATH]. *)
Record arrival : Type := Arrival {
  new_dir : string;
  announced : bool
}.

(** The outside of the script.  [exec fs dir argv] runs the program named by
    the head of [argv] from directory [dir].  [chdir fs env dir target]
    resolves the target of a [cd] issued in directory [dir] by a shell whose
    variables are [env]: either where it arrives, or the reason the system
    gives for refusing. *)
Record host (FS : Type) : Type := Host {
  exec : FS -> string -> list string -> tool_result * FS;
  chdir : FS -> gmap string string -> string -> string -> arrival + string
}.
Arguments exec {FS} _ _ _ _.
Arguments chdir {FS} _ _ _ _ _.

(** What a run leaves behind, in order. *)
Inductive event : Type :=
| Ran (argv : list string)      (* a simple command was executed with these words *)
| Out (line : string)           (* a line written by [echo] *)
| Err (msg : string)            (* a diagnostic of the shell or of a builtin *)
| ToolOut (text : string).      (* text written by a program that was called *)

(** How a command ends: normally, by [return n] leaving a sourced file, or
    by an expansion error, which makes bash drop the whole command being
    executed and go on with the next one read from the file. *)
Inductive outcome (A : Type) : Type :=
| Done (a : A)
| Returned (code : Z)
| Discarded.
Arguments Done {A} a.
Arguments Returned {A} code.
Arguments Discarded {A}.

Section Monad.
Context {FS : Type}.

Record config : Type := Config { sh : shell; fs : FS }.

Definition script (A : Type) : Type :=
  host FS -> config -> outcome A * config * list event.

Definition ret {A} (a : A) : script A := fun _ c => (Done a, c, []).

Definition bind {A B} (m : script A) (k : A -> script B) : script B :=
  fun h c =>
    match m h c with
    | (Done a, c1, t1) =>
        match k a h c1 with (o, c2, t2) => (o, c2, t1 ++ t2) end
    | (Returned n, c1, t1) => (Returned n, c1, t1)
    | (Discarded, c1, t1) => (Discarded, c1, t1)
    end.

Definition seq (m1 m2 : script unit) : script unit := bind m1 (fun _ => m2).

Definition emit (e : event) : script unit := fun _ c => (Done tt, c, [e]).
Definition status (z : Z) : script unit :=
  fun _ c => (Done tt, {| sh := set_last z (sh c); fs := fs c |}, []).
Definition get_last : script Z := fun _ c => (Done (last_status (sh c)), c, []).

End Monad.

Declare Scope script_scope.
Delimit Scope script_scope with script.
Notation "x ;; z" := (seq x z)
  (at level 100, z at level 200, right associativity) : script_scope.
Notation "x ← y ; z" := (bind y (fun x => z))
  (at level 20, y at level 100, z at level 200) : script_scope.
Local Open Scope script_scope.

(** *** Words and their expansion *)

Definition between (lo hi : nat) (a : ascii) : bool :=
  (lo <=? nat_of_ascii a)%nat && (nat_of_ascii a <=? hi)%nat.

Definition is_upper : ascii -> bool := between 65 90.
Definition is_lower : ascii -> bool := between 97 122.
Definition is_digit : ascii -> bool := between 48 57.
Definition is_underscore : ascii -> bool := between 95 95.

Definition name_start (a : ascii) : bool := is_upper a || is_lower a || is_underscore a.
Definition name_char (a : ascii) : bool := name_start a || is_digit a.

Fixpoint all_chars (p : ascii -> bool) (s : string) : bool :=
  match s with
  | EmptyString => true
  | String a r => p a && all_chars p r
  end.

(** A shell name: a letter or underscore followed by letters, digits and
    underscores.  The bytes of a character outside ASCII are none of these. *)
Definition legal_identifier (name : string) : bool :=
  match name with
  | EmptyString => false
  | String a r => name_start a && all_chars name_char r
  end.

(** An expansion yields a string from the shell state or fails with the
    text bash prints after the word. *)
Definition expansion : Type := shell -> string + string.

Definition lit (s : string) : expansion := fun _ => inl s.

(** [${NAME}]: the value, or the empty string when unset.  Braces around
    something that is not a name are a bad substitution: bash prints the
    word with that complaint and gives up the command being expanded. *)
Definition braced (name : string) : expansion :=
  fun s => if legal_identifier name
           then inl (default "" (vars s !! name))
           else inr "bad substitution".

(** [$NAME] without braces: the shell itself cuts the name where it ends. *)
Definition dollar (name : string) : expansion :=
  fun s => inl (default "" (vars s !! name)).

(** [$1], [$2], ... *)
Definition positional (i : nat) : expansion :=
  fun s => inl (default "" (params s !! pred i)).

(** [$#] *)
Definition count : expansion :=
  fun s => inl (NilEmpty.string_of_uint (Nat.to_uint (length (params s)))).

(** [$(pwd)]: the directory the shell is in, whatever [PWD] holds. *)
Definition pwd_output : expansion := fun s => inl (cwd s).

(** Adjacent parts of one word, as inside double quotes. *)
Fixpoint parts (ps : list expansion) : expansion :=
  fun s =>
    match ps with
    | [] => inl ""
    | [p] => p s
    | p :: r =>
        match p s with
        | inl a => match parts r s with
                   | inl b => inl (a +:+ b)
                   | inr e => inr e
                   end
        | inr e => inr e
        end
    end.

(** The words of a command are expanded from left to right; the first error
    stops the expansion. *)
Fixpoint expand_all (ws : list expansion) (s : shell) : list string + string :=
  match ws with
  | [] => inl []
  | w :: r =>
      match w s with
      | inl a => match expand_all r s with
                 | inl l => inl (a :: l)
                 | inr e => inr e
                 end
      | inr e => inr e
      end
  end.

(** *** Builtins *)

Definition numeric (s : string) : option Z :=
  option_map Z.of_int (NilZero.int_of_string s).

(** The expression between the brackets.  The file only ever writes the
    operator [-eq]; no argument and one argument follow the manual, and
    anything else is answered the way bash answers an expression it cannot
    read, with status 2. *)
Definition test_expr (args : list string) : Z * list event :=
  match args with
  | [] => (1, [])
  | [a] => (if String.eqb a "" then 1 else 0, [])
  | [a; op; b] =>
      if String.eqb op "-eq" then
        match numeric a, numeric b with
        | Some x, Some y => (if x =? y then 0 else 1, [])
        | _, _ => (2, [Err "[: integer expression expected"])
        end
      else (2, [Err "[: expression not understood"])
  | _ => (2, [Err "[: expression not understood"])
  end.

(** The builtin [[]: its last argument has to be the word []] on its own.
    When it is not, the builtin complains and exits with status 2 without
    looking at the expression. *)
Definition bracket (args : list string) : Z * list event :=
  match last args with
  | Some w => if String.eqb w "]" then test_expr (removelast args)
              else (2, [Err "[: missing `]'"])
  | None => (2, [Err "[: missing `]'"])
  end.

Fixpoint join (ws : list string) : string :=
  match ws with
  | [] => ""
  | [w] => w
  | w :: r => w +:+ " " +:+ join r
  end.

Section Commands.
Context {FS : Type}.

Definition builtin_bracket (args : list string) : script (FS:=FS) unit :=
  fun _ c =>
    let '(z, t) := bracket args in
    (Done tt, {| sh := set_last z (sh c); fs := fs c |}, t).

Definition builtin_echo (args : list string) : script (FS:=FS) unit :=
  emit (Out (join args)) ;; status 0.

(** [return].  In a file read by [source] the rest of the file is left
    with the given status.  In a file run as a program there is nothing to
    return from: the builtin complains, answers 2, and the next command is
    executed. *)
Definition leave (code : Z) (said : list event) : script (FS:=FS) unit :=
  fun _ c =>
    if sourced (sh c) then (Returned code, c, said)
    else (Done tt, {| sh := set_last 2 (sh c); fs := fs c |},
          said ++ [Err "return: can only `return' from a function or sourced script"]).

Definition builtin_return (args : list string) : script (FS:=FS) unit :=
  fun h c =>
    match args with
    | [] => leave (last_status (sh c)) [] h c
    | [n] =>
        match numeric n with
        | Some z => leave (z mod 256) [] h c
        | None => leave 2 [Err "return: numeric argument required"] h c
        end
    | _ =>
        if sourced (sh c)
        then (Returned 1, c, [Err "return: too many arguments"])
        else (Done tt, {| sh := set_last 1 (sh c); fs := fs c |},
              [Err "return: too many arguments"])
    end.

Definition go (target : string) : script (FS:=FS) unit :=
  fun h c =>
    match chdir h (fs c) (vars (sh c)) (cwd (sh c)) target with
    | inl a =>
        (Done tt, {| sh := set_cwd (new_dir a) (sh c); fs := fs c |},
         if announced a then [Out (new_dir a)] else [])
    | inr why =>
        (Done tt, {| sh := set_last 1 (sh c); fs := fs c |},
         [Err ("cd: " +:+ target +:+ ": " +:+ why)])
    end.

Definition builtin_cd (args : list string) : script (FS:=FS) unit :=
  fun h c =>
    match args with
    | [] => match vars (sh c) !! "HOME" with
            | Some d => go d h c
            | None => (Done tt, {| sh := set_last 1 (sh c); fs := fs c |},
                       [Err "cd: HOME not set"])
            end
    | [target] => go target h c
    | _ => (Done tt, {| sh := set_last 1 (sh c); fs := fs c |},
            [Err "cd: too many arguments"])
    end.

(** Any other command name is looked up outside the shell and run as a
    process: its output goes past the shell, its exit status becomes [$?]. *)
Definition external (argv : list string) : script (FS:=FS) unit :=
  fun h c =>
    let '(r, fs') := exec h (fs c) (cwd (sh c)) argv in
    (Done tt, {| sh := set_last (exit_code r) (sh c); fs := fs' |},
     [ToolOut (printed r)]).

Definition dispatch (argv : list string) : script (FS:=FS) unit :=
  match argv with
  | [] => status 0
  | name :: args =>
      if String.eqb name "[" then builtin_bracket args
      else if String.eqb name "echo" then builtin_echo args
      else if String.eqb name "return" then builtin_return args
      else if String.eqb name "cd" then builtin_cd args
      else external argv
  end.

(** A simple command: expand the words, then run what they name.  An
    expansion error is reported, leaves status 1, and drops the command. *)
Definition command (ws : list expansion) : script (FS:=FS) unit :=
  fun h c =>
    match expand_all ws (sh c) with
    | inl argv => (emit (Ran argv) ;; dispatch argv) h c
    | inr e => (Discarded, {| sh := set_last 1 (sh c); fs := fs c |}, [Err e])
    end.

(** [NAME=word] *)
Definition assign (name : string) (w : expansion) : script (FS:=FS) unit :=
  fun _ c =>
    match w (sh c) with
    | inl v => (Done tt, {| sh := set_var name v (sh c); fs := fs c |}, [])
    | inr e => (Discarded, {| sh := set_last 1 (sh c); fs := fs c |}, [Err e])
    end.

(** [if cond; then thn; else els; fi] *)
Definition if_then_else (cond thn els : script (FS:=FS) unit) : script unit :=
  cond ;; z ← get_last; if z =? 0 then thn else els.

(** [if cond; then thn; fi]: status 0 when no branch is taken. *)
Definition if_then (cond thn : script (FS:=FS) unit) : script unit :=
  if_then_else cond thn (status 0).

(** [c1 || c2] *)
Definition or_else (c1 c2 : script (FS:=FS) unit) : script unit :=
  c1 ;; z ← get_last; if z =? 0 then ret tt else c2.

(** *** Reading a file

    bash reads a file one complete command at a time and executes each
    before it reads the next, whether the file is given to [source] or run
    as a program.  A compound command that the end of the file cuts short
    is a syntax error: nothing of it is executed, and the answer is 2. *)
Inductive item : Type :=
| Complete (c : script (FS:=FS) unit)
| Unclosed (c : script (FS:=FS) unit).

Fixpoint source (file : list item) (h : host FS) (c : config)
  : Z * config * list event :=
  match file with
  | [] => (last_status (sh c), c, [])
  | Complete cmd :: rest =>
      match cmd h c with
      | (Done _, c1, t1) | (Discarded, c1, t1) =>
          match source rest h c1 with (z, c2, t2) => (z, c2, t1 ++ t2) end
      | (Returned n, c1, t1) =>
          (n, {| sh := set_last n (sh c1); fs := fs c1 |}, t1)
      end
  | Unclosed _ :: _ =>
      (2, {| sh := set_last 2 (sh c); fs := fs c |},
       [Err "syntax error: unexpected end of file"])
  end.

(** The same shell, told that the file is sourced or run as a program. *)
Definition with_sourced (b : bool) (c : config (FS:=FS)) : config :=
  {| sh := {| vars := vars (sh c); params := params (sh c);
              cwd := cwd (sh c); last_status := last_status (sh c);
              sourced := b |};
     fs := fs c |}.

End Commands.

End Bash.

(** ** src/utils/create-worktree.sh *)

Module CreateWorktree.
Import Bash.
Local Open Scope script_scope.

Section Script.
Context {FS : Type}.

(** Lines 2 to 5.  The fourth word of the test is [0]], the zero and the
    bracket written without a space between them. *)
Definition guard : script (FS:=FS) unit :=
  if_then (command [lit "["; count; lit "-eq"; lit "0]"])
    (command [lit "echo"; lit "Error: Worktree name needed!"] ;;
     command [lit "return"; lit "1"]).

(** Line 6: [ARGUMENT=$1] *)
Definition set_ARGUMENT : script (FS:=FS) unit :=
  assign "ARGUMENT" (positional 1).

(** Line 7: ["../${...}$ARGUMENT"], the braces holding a name written in
    Hangul. *)
Definition set_WORKTREE_PATH : script (FS:=FS) unit :=
  assign "WORKTREE_PATH"
    (parts [lit "../"; braced "폴더이름"; dollar "ARGUMENT"]).

(** Lines 9 to 16: the commands of the conditional on [git worktree add],
    in the structure the lines lay out.  The [cd] on line 11 is given the
    word [WORKTREE_PATH], with no dollar sign.  The file ends after line 16
    without the closing [fi], so bash never executes this command when it
    reads the file: it enters [create_worktree_sh] below as [Unclosed]. *)
Definition worktree_add_branch : script (FS:=FS) unit :=
  if_then_else
    (command [lit "git"; lit "worktree"; lit "add";
              parts [dollar "WORKTREE_PATH"]])
    (command [lit "echo";
              parts [lit "Worktree added successfully: ";
                     dollar "WORKTREE_PATH"]] ;;
     or_else (command [lit "cd"; lit "WORKTREE_PATH"])
             (command [lit "return"; lit "1"]) ;;
     command [lit "echo";
              parts [lit "Directory change succeeded: "; pwd_output]] ;;
     command [lit "claude"])
    (command [lit "echo"; lit "Worktree creation failed"] ;;
     command [lit "return"; lit "1"]).

(** The word ["$WORKTREE_PATH"] of lines 9 and 10 as the shell expands it. *)
Definition path_word (c : config (FS:=FS)) : string :=
  default "" (vars (sh c) !! "WORKTREE_PATH").

(** The call of line 9 and what the host would answer to it. *)
Definition git_argv (c : config (FS:=FS)) : list string :=
  ["git"; "worktree"; "add"; path_word c].

Definition git_answer (h : host FS) (c : config) : tool_result * FS :=
  exec h (fs c) (cwd (sh c)) (git_argv c).

(** What the host would answer to the [cd] of line 11 after that call. *)
Definition cd_answer (h : host FS) (c : config) : arrival + string :=
  chdir h (git_answer h c).2 (vars (sh c)) (cwd (sh c)) "WORKTREE_PATH".

(** The file as bash reads it.  Line 16 is the last line: the [fi] that
    would close the conditional of line 9 is not in the file. *)
Definition create_worktree_sh : list (item (FS:=FS)) :=
  [ Complete guard;
    Complete set_ARGUMENT;
    Complete set_WORKTREE_PATH;
    Unclosed worktree_add_branch ].

Definition create_worktree : host FS -> config -> Z * config * list event :=
  source create_worktree_sh.

End Script.

End CreateWorktree.

(** ** Reading traces *)

Module Trace.
Import Bash.

(** The commands executed, in order, with their words. *)
Fixpoint executed (t : list event) : list (list string) :=
  match t with
  | [] => []
  | Ran argv :: r => argv :: executed r
  | _ :: r => executed r
  end.

(** The lines the script itself printed. *)
Fixpoint echoed (t : list event) : list string :=
  match t with
  | [] => []
  | Out l :: r => l :: echoed r
  | _ :: r => echoed r
  end.

(** [echo], [return] and [[] only report or steer; every other command
    acts on something outside the script. *)
Definition steers (argv : list string) : bool :=
  match argv with
  | [] => true
  | name :: _ =>
      String.eqb name "echo" || String.eqb name "return" || String.eqb name "["
  end.

Definition tool_steps (t : list event) : list (list string) :=
  List.filter (fun argv => negb (steers argv)) (executed t).

(** The trace without what the called programs wrote. *)
Fixpoint own (t : list event) : list event :=
  match t with
  | [] => []
  | ToolOut _ :: r => own r
  | e :: r => e :: own r
  end.

Definition named (name : string) (argv : list string) : bool :=
  match argv with
  | [] => false
  | n :: _ => String.eqb n name
  end.

Definition runs_of (name : string) (t : list event) : nat :=
  length (List.filter (named name) (executed t)).

End Trace.

(** ** A host to run examples on

    The directory tree is the list of directories that exist next to the
    working directory, and no [CDPATH] is in play.  [git worktree add p]
    refuses an empty path and a path that is already there, and creates
    the directory otherwise; [claude] exits with status 0. *)

Module Demo.
Import Bash.

Definition git_worktree_add (fs : list string) (p : string)
  : tool_result * list string :=
  if String.eqb p "" then
    ({| exit_code := 128; printed := "fatal: invalid path" |}, fs)
  else if bool_decide (p ∈ fs) then
    ({| exit_code := 128; printed := "fatal: already exists" |}, fs)
  else
    ({| exit_code := 0; printed := "Preparing worktree" |}, p :: fs).

Definition demo_exec (fs : list string) (dir : string) (argv : list string)
  : tool_result * list string :=
  match argv with
  | [g; w; a; p] =>
      if String.eqb g "git" && String.eqb w "worktree" && String.eqb a "add"
      then git_worktree_add fs p
      else ({| exit_code := 127; printed := "command not found" |}, fs)
  | [c] =>
      if String.eqb c "claude"
      then ({| exit_code := 0; printed := "" |}, fs)
      else ({| exit_code := 127; printed := "command not found" |}, fs)
  | _ => ({| exit_code := 127; printed := "command not found" |}, fs)
  end.

Definition demo_chdir (fs : list string) (env : gmap string string)
    (dir target : string) : arrival + string :=
  if bool_decide (target ∈ fs)
  then inl {| new_dir := dir +:+ "/" +:+ target; announced := false |}
  else inr "No such file or directory".

Definition laptop : host (list string) :=
  {| exec := demo_exec; chdir := demo_chdir |}.

(** The same machine with a [git] that says something else. *)
Definition chatty : host (list string) :=
  {| exec := fun fs dir argv =>
       let '(r, fs') := demo_exec fs dir argv in
       ({| exit_code := if exit_code r =? 0 then 0 else 1;
           printed := "git: " +:+ printed r |}, fs');
     chdir := demo_chdir |}.

(** A shell sitting in [/repo] with the given positional parameters,
    variables and directories, about to read the file with [source]. *)
Definition at_repo (args : list string) (env : gmap string string)
    (dirs : list string) : config (FS:=list string) :=
  {| sh := {| vars := env; params := args; cwd := "/repo"; last_status := 0;
              sourced := true |};
     fs := dirs |}.

(** Three situations for the one parameter [feat], the variable already
    holding [../feat]: nothing is there yet; the worktree directory is
    already there; a directory called [WORKTREE_PATH] is there. *)
Definition nothing_there : config (FS:=list string) :=
  at_repo ["feat"] {["WORKTREE_PATH" := "../feat"]} [].

Definition already_there : config (FS:=list string) :=
  at_repo ["feat"] {["WORKTREE_PATH" := "../feat"]} ["../feat"].

Definition literal_dir_there : config (FS:=list string) :=
  at_repo ["feat"] {["WORKTREE_PATH" := "../feat"]} ["WORKTREE_PATH"].

End Demo.

(** ** src/app/page.tsx *)

Module Page.

(** The markup a component returns. *)
#[local] Set Warnings "-register-all".
Inductive node : Type :=
| Text (s : string)
| Element (tag className : string) (children : list node).

(** What rendering a function component amounts to: the markup returned,
    the hook store of the component instance afterwards, and the effects
    queued to run after the commit. *)
Record rendering (Store : Type) : Type := Rendering {
  markup : node;
  store : Store;
  queued : list string
}.
Arguments markup {Store} _.
Arguments store {Store} _.
Arguments queued {Store} _.

(** [export default function Home()]: the parameter list is empty, so the
    props object the framework passes is dropped; the body is a single
    [return] of a JSX literal and calls no hook. *)
Definition Home {Props Store : Type} (_ : Props) (st : Store) : rendering Store :=
  {| markup :=
       Element "main"
         "flex min-h-screen flex-col items-center justify-center p-24"
         [ Element "div" "flex flex-col items-center gap-4"
             [ Element "h1" "text-4xl font-bold"
                 [ Text "Welcome to NomadHub" ];
               Element "p" "text-muted-foreground"
                 [ Text "Next.js 15 + TypeScript + Tailwind CSS + shadcn/ui" ] ] ];
     store := st;
     queued := [] |}.

(** The text found directly inside the elements with a given tag. *)
Fixpoint text_in (tag : string) (n : node) : list string :=
  match n with
  | Text _ => []
  | Element t _ kids =>
      (if String.eqb t tag
       then flat_map (fun k => match k with Text s => [s] | _ => [] end) kids
       else [])
      ++ flat_map (text_in tag) kids
  end.

End Page.

Import Bash CreateWorktree Trace Demo.
Local Open Scope script_scope.

(** ** The guard of lines 2 to 5 *)

(** The closing bracket glued to the zero is not the word the builtin looks
    for, whatever the number of parameters. *)
Lemma bracket_glued (n : string) :
  bracket [n; "-eq"; "0]"] = (2, [Err "[: missing `]'"]).
Proof. reflexivity. Qed.

(** With the space in place the test would have succeeded on zero. *)
Example bracket_spaced : bracket ["0"; "-eq"; "0"; "]"] = (0, []).
Proof. reflexivity. Qed.

Example bracket_spaced_one : bracket ["1"; "-eq"; "0"; "]"] = (1, []).
Proof. reflexivity. Qed.

Section Guard.
Context {FS : Type} (h : host FS).

(** The guard as a whole: the test is executed, fails, and the command
    ends normally with status 0, for any parameters. *)
Lemma guard_run (c : config) :
  guard h c =
    (Done tt, {| sh := set_last 0 (sh c); fs := fs c |},
     [Ran ["["; NilEmpty.string_of_uint (Nat.to_uint (length (params (sh c))));
           "-eq"; "0]"];
      Err "[: missing `]'"]).
Proof. destruct c as [[v ps d z b] f]. reflexivity. Qed.

End Guard.

(** ** Reading the whole file *)

Example hangul_is_no_name : legal_identifier "폴더이름" = false.
Proof. reflexivity. Qed.

Example ARGUMENT_is_a_name : legal_identifier "ARGUMENT" = true.
Proof. reflexivity. Qed.

Section File.
Context {FS : Type} (h : host FS).

(** Line 7 on its own: the word cannot be expanded, the assignment is
    dropped and no variable changes. *)
Lemma set_WORKTREE_PATH_run (c : config) :
  set_WORKTREE_PATH h c =
    (Discarded, {| sh := set_last 1 (sh c); fs := fs c |},
     [Err "bad substitution"]).
Proof. reflexivity. Qed.

(** What reading [create-worktree.sh] does, for any parameters and either
    way of reading it: the test of the guard fails, [ARGUMENT] is set,
    line 7 is dropped, and the conditional of line 9 is never entered. *)
Lemma create_worktree_run (c : config) :
  create_worktree h c =
    (2,
     {| sh := {| vars := <["ARGUMENT" := default "" (params (sh c) !! 0%nat)]>
                           (vars (sh c));
                 params := params (sh c);
                 cwd := cwd (sh c);
                 last_status := 2;
                 sourced := sourced (sh c) |};
        fs := fs c |},
     [Ran ["["; NilEmpty.string_of_uint (Nat.to_uint (length (params (sh c))));
           "-eq"; "0]"];
      Err "[: missing `]'";
      Err "bad substitution";
      Err "syntax error: unexpected end of file"]).
Proof. destruct c as [[v ps d z b] f]. reflexivity. Qed.

(** No tool is reached when the file is read as it stands. *)
Lemma create_worktree_reaches_no_tool (c : config) :
  tool_steps (create_worktree h c).2 = [].
Proof. rewrite create_worktree_run. reflexivity. Qed.

End File.

(** C1.  When the file is read with no positional parameter, the line
    "Error: Worktree name needed!" is not printed: the test of the guard is
    run with the words [0 -eq 0]], which the builtin rejects for want of a
    closing bracket, so the guard ends normally without entering its
    branch, and nothing read after it prints that line either. *)
Theorem C1_error_message_never_printed {FS : Type} (h : host FS) (c : config) :
  params (sh c) = [] ->
  bracket ["0"; "-eq"; "0]"] = (2, [Err "[: missing `]'"]) /\
  guard h c =
    (Done tt, {| sh := set_last 0 (sh c); fs := fs c |},
     [Ran ["["; "0"; "-eq"; "0]"]; Err "[: missing `]'"]) /\
  ~ In "Error: Worktree name needed!" (echoed (create_worktree h c).2) /\
  ~ In (Out "Error: Worktree name needed!") (create_worktree h c).2.
Proof.
  intros Hp. split; [reflexivity|]. split.
  - rewrite guard_run, Hp. reflexivity.
  - rewrite create_worktree_run. cbn. split.
    + tauto.
    + intros [H|[H|[H|[H|[]]]]]; discriminate H.
Qed.

Lemma C1_error_message_never_printed_witness :
  params (sh (at_repo [] ∅ [])) = [] /\
  ~ In (Out "Error: Worktree name needed!")
       (create_worktree laptop (at_repo [] ∅ [])).2.
Proof.
  split; [reflexivity|].
  apply (C1_error_message_never_printed laptop (at_repo [] ∅ [])).
  reflexivity.
Defined.

(** ** The claims about the guard and the assignments *)

(** C2, as the specification words it, at the input of no parameter: were
    the guard a failure of the parser, reading the file would execute
    nothing of it and nothing after it.  On the example machine the test of
    the guard is executed, the only complaint of the guard is the one the
    builtin makes while running, and the assignment of line 6 is executed
    after it. *)
Lemma C2_guard_is_parsed_and_run :
  executed (create_worktree laptop (at_repo [] ∅ [])).2 <> [] /\
  executed (create_worktree laptop (at_repo [] ∅ [])).2
    = [["["; "0"; "-eq"; "0]"]] /\
  (guard laptop (at_repo [] ∅ [])).2
    = [Ran ["["; "0"; "-eq"; "0]"]; Err "[: missing `]'"] /\
  (source [Complete guard] laptop (at_repo [] ∅ [])).1.1 = 0 /\
  vars (sh (create_worktree laptop (at_repo [] ∅ [])).1.2) !! "ARGUMENT"
    = Some "".
Proof. split; [discriminate|]. repeat split; reflexivity. Qed.

(** C2, amended.  With no parameter the guard is read as a complete
    command and executed: its test runs with [0]] as last word, the builtin
    reports the missing bracket and exits with status 2 at run time, the
    message is not printed, and the guard ends normally with status 0, so
    that the line after it is executed. *)
Theorem C2_guard_fails_at_run_time {FS : Type} (h : host FS) (c : config) :
  params (sh c) = [] ->
  executed (guard h c).2 = [["["; "0"; "-eq"; "0]"]] /\
  (bracket ["0"; "-eq"; "0]"]).1 = 2 /\
  echoed (guard h c).2 = [] /\
  (guard h c).1.1 = Done tt /\
  last_status (sh (guard h c).1.2) = 0 /\
  vars (sh (create_worktree h c).1.2) !! "ARGUMENT" = Some "".
Proof.
  intros Hp. rewrite guard_run, create_worktree_run, Hp. cbn.
  repeat split. apply lookup_insert_eq.
Qed.

Lemma C2_guard_fails_at_run_time_witness :
  params (sh (at_repo [] ∅ [])) = [] /\
  executed (guard laptop (at_repo [] ∅ [])).2 = [["["; "0"; "-eq"; "0]"]].
Proof.
  split; [reflexivity|].
  apply (C2_guard_fails_at_run_time laptop (at_repo [] ∅ [])).
  reflexivity.
Defined.

(** Line 7 never assigns: after the file is read, [WORKTREE_PATH] is what
    the calling shell had in it. *)
Lemma WORKTREE_PATH_untouched {FS : Type} (h : host FS) (c : config) :
  path_word (create_worktree h c).1.2 = path_word c.
Proof.
  rewrite create_worktree_run. unfold path_word. cbn.
  now rewrite lookup_insert_ne.
Qed.

(** C9 at the failing input: the file read with the one parameter [feat]
    in a shell that has no [WORKTREE_PATH].  Line 7 is rejected as a bad
    substitution, the variable stays unset, and the word given to
    [git worktree add] on line 9 is empty, not [../feat]. *)
Theorem C9_path_is_not_built :
  In (Err "bad substitution")
     (create_worktree laptop (at_repo ["feat"] ∅ [])).2 /\
  vars (sh (create_worktree laptop (at_repo ["feat"] ∅ [])).1.2)
    !! "WORKTREE_PATH" = None /\
  vars (sh (create_worktree laptop (at_repo ["feat"] ∅ [])).1.2)
    !! "ARGUMENT" = Some "feat" /\
  git_argv (create_worktree laptop (at_repo ["feat"] ∅ [])).1.2
    = ["git"; "worktree"; "add"; ""] /\
  hd_error
    (executed
       (worktree_add_branch laptop
          (create_worktree laptop (at_repo ["feat"] ∅ [])).1.2).2)
    = Some ["git"; "worktree"; "add"; ""] /\
  path_word (create_worktree laptop (at_repo ["feat"] ∅ [])).1.2
    <> "../" +:+ "feat".
Proof.
  split; [right; right; left; reflexivity|].
  repeat split; try reflexivity. discriminate.
Qed.

(** ** The claims about the conditional on [git worktree add]

    The conditional of lines 9 to 16 is never closed, so reading the file
    never gets to execute it.  Each of the following evaluates the file at
    an input where the host would have let the conditional take the path
    the claim speaks of. *)

(** What the example machine would answer in the three situations, were it
    asked. *)
Example git_would_succeed_and_cd_arrive :
  exit_code (git_answer laptop literal_dir_there).1 = 0 /\
  cd_answer laptop literal_dir_there
    = inl {| new_dir := "/repo/WORKTREE_PATH"; announced := false |}.
Proof. split; reflexivity. Qed.

Example git_would_refuse :
  exit_code (git_answer laptop already_there).1 = 128.
Proof. reflexivity. Qed.

Example git_would_succeed_and_cd_fail :
  exit_code (git_answer laptop nothing_there).1 = 0 /\
  cd_answer laptop nothing_there = inr "No such file or directory".
Proof. split; reflexivity. Qed.

(** C3 at a failing input: the file read with the parameter [feat] where
    [git worktree add ../feat] would succeed and a directory called
    [WORKTREE_PATH] exists.  No [cd] is executed, with the literal name or
    any other: the only command executed is the test of the guard, the
    shell stays in [/repo], and the answer is 2. *)
Theorem C3_no_cd_is_executed :
  executed (create_worktree laptop literal_dir_there).2
    = [["["; "1"; "-eq"; "0]"]] /\
  ~ In ["cd"; "WORKTREE_PATH"]
       (executed (create_worktree laptop literal_dir_there).2) /\
  runs_of "cd" (create_worktree laptop literal_dir_there).2 = 0%nat /\
  cwd (sh (create_worktree laptop literal_dir_there).1.2) = "/repo" /\
  (create_worktree laptop literal_dir_there).1.1 = 2.
Proof.
  split; [reflexivity|]. split; [|repeat split].
  intros [H|[]]. discriminate H.
Qed.

(** C4 at a failing input: the same situation, in which all three of
    [git worktree add], [cd] and [claude] would succeed.  Reading the file
    invokes none of them. *)
Theorem C4_no_tool_is_invoked :
  tool_steps (create_worktree laptop literal_dir_there).2 = [] /\
  tool_steps (create_worktree laptop literal_dir_there).2
    <> [["git"; "worktree"; "add"; "../feat"];
        ["cd"; "WORKTREE_PATH"];
        ["claude"]].
Proof. split; [reflexivity|discriminate]. Qed.

(** C5 at a failing input: the file read with the parameter [feat] where
    [../feat] is already there, so that [git worktree add] would exit with
    a nonzero status.  [git] is not run, "Worktree creation failed" is not
    printed, nothing is printed at all, and the answer is 2, not 1. *)
Theorem C5_failure_is_not_reported :
  runs_of "git" (create_worktree laptop already_there).2 = 0%nat /\
  ~ In "Worktree creation failed"
       (echoed (create_worktree laptop already_there).2) /\
  echoed (create_worktree laptop already_there).2 = [] /\
  (create_worktree laptop already_there).1.1 = 2 /\
  (create_worktree laptop already_there).1.1 <> 1.
Proof.
  split; [reflexivity|]. split; [intros []|].
  split; [reflexivity|]. split; [reflexivity|discriminate].
Qed.

(** C8 at the failing input, the file read with no parameter: the guard
    does fall through and [ARGUMENT] is set to the empty string, but no
    [git worktree add] is attempted on any path; reading ends on the syntax
    error of the unclosed conditional with the answer 2. *)
Theorem C8_zero_arguments_never_reach_git :
  (guard laptop (at_repo [] ∅ [])).1.1 = Done tt /\
  vars (sh (create_worktree laptop (at_repo [] ∅ [])).1.2) !! "ARGUMENT"
    = Some "" /\
  ~ (exists p : string,
       In ["git"; "worktree"; "add"; p]
          (executed (create_worktree laptop (at_repo [] ∅ [])).2)) /\
  runs_of "git" (create_worktree laptop (at_repo [] ∅ [])).2 = 0%nat /\
  List.last (create_worktree laptop (at_repo [] ∅ [])).2 (Out "")
    = Err "syntax error: unexpected end of file" /\
  (create_worktree laptop (at_repo [] ∅ [])).1.1 = 2.
Proof.
  split; [reflexivity|]. split; [reflexivity|]. split; [|repeat split].
  intros [p [H|[]]]. discriminate H.
Qed.

(** C10 at a failing input: the file read with the parameter [feat] where
    [git worktree add ../feat] would succeed and the [cd] to
    [WORKTREE_PATH] would find no directory.  [claude] is not launched, but
    neither is the [cd] attempted nor any [return] executed, and the answer
    is 2, not 1. *)
Theorem C10_no_cd_and_no_return_1 :
  runs_of "claude" (create_worktree laptop nothing_there).2 = 0%nat /\
  runs_of "cd" (create_worktree laptop nothing_there).2 = 0%nat /\
  runs_of "return" (create_worktree laptop nothing_there).2 = 0%nat /\
  (create_worktree laptop nothing_there).1.1 = 2 /\
  (create_worktree laptop nothing_there).1.1 <> 1.
Proof. repeat split. discriminate. Qed.

(** Two hosts that differ in what [git] prints and in its nonzero status. *)
Example chatty_prints_differently :
  (exec laptop ["../feat"] "/repo" ["git"; "worktree"; "add"; "../feat"]).1
    = {| exit_code := 128; printed := "fatal: already exists" |} /\
  (exec chatty ["../feat"] "/repo" ["git"; "worktree"; "add"; "../feat"]).1
    = {| exit_code := 1; printed := "git: fatal: already exists" |}.
Proof. split; reflexivity. Qed.

(** C6.  Nothing the file does depends on [git] or [claude]: on any two
    hosts, whatever their tools print and however they exit, reading the
    file gives the same answer, the same shell and tree and the same trace.
    So no output of a tool is parsed, and no failure of a tool is recovered
    from: neither [git] nor [claude] is run a second time (as the file
    stands, neither is run at all, and no exit status is looked at). *)
Theorem C6_nothing_depends_on_the_tools {FS : Type} (h1 h2 : host FS)
    (c : config) :
  create_worktree h1 c = create_worktree h2 c /\
  (runs_of "git" (create_worktree h1 c).2 <= 1)%nat /\
  (runs_of "claude" (create_worktree h1 c).2 <= 1)%nat /\
  own (create_worktree h1 c).2 = (create_worktree h1 c).2.
Proof.
  rewrite !create_worktree_run. cbn. repeat split; lia.
Qed.

(** ** The landing page *)

(** C7.  [Home] is a static render: whatever props object and hook store
    it is called with, of whatever type, it returns the one same markup,
    whose headline reads "Welcome to NomadHub" above the subtitle; it hands
    the store back as it received it and queues no effect. *)
Theorem C7_Home_is_static {P1 P2 S1 S2 : Type}
    (p1 : P1) (p2 : P2) (s1 : S1) (s2 : S2) :
  Page.markup (Page.Home p1 s1) = Page.markup (Page.Home p2 s2) /\
  Page.store (Page.Home p1 s1) = s1 /\
  Page.queued (Page.Home p1 s1) = [] /\
  Page.text_in "h1" (Page.markup (Page.Home p1 s1)) = ["Welcome to NomadHub"] /\
  Page.text_in "p" (Page.markup (Page.Home p1 s1))
    = ["Next.js 15 + TypeScript + Tailwind CSS + shadcn/ui"] /\
  Page.text_in "main" (Page.markup (Page.Home p1 s1)) = [] /\
  Page.text_in "div" (Page.markup (Page.Home p1 s1)) = [].
Proof. repeat split. Qed.

(** ** Further properties of the script *)


Example guard_with_three_arguments :
  guard laptop (at_repo ["a"; "b"; "c"] ∅ [])
  = (Done tt, at_repo ["a"; "b"; "c"] ∅ [],
     [Ran ["["; "3"; "-eq"; "0]"]; Err "[: missing `]'"]).
Proof. reflexivity. Qed.



(** X4.  Reading the file a second time changes nothing more: the shell
    and the directory tree after two readings are those after one, and the
    second reading leaves the same trace as the first. *)
Theorem X4_reading_twice_is_reading_once {FS : Type} (h : host FS) (c : config) :
  (create_worktree h (create_worktree h c).1.2).1.2
    = (create_worktree h c).1.2 /\
  (create_worktree h (create_worktree h c).1.2).2 = (create_worktree h c).2 /\
  (create_worktree h (create_worktree h c).1.2).1.1 = 2.
Proof.
  rewrite (create_worktree_run h (create_worktree h c).1.2).
  rewrite create_worktree_run. cbn.
  rewrite insert_insert_eq. repeat split.
Qed.

(** X9.  For every host, every shell state and either way of reading the
    file, the one command executed is the test of the guard: no [git], no
    [cd], no [claude], no [echo] and no [return] is executed, and the host
    is never consulted. *)
Theorem X9_only_the_test_is_executed {FS : Type} (h : host FS) (c : config) :
  executed (create_worktree h c).2
    = [["["; NilEmpty.string_of_uint (Nat.to_uint (length (params (sh c))));
        "-eq"; "0]"]] /\
  tool_steps (create_worktree h c).2 = [] /\
  runs_of "echo" (create_worktree h c).2 = 0%nat /\
  runs_of "return" (create_worktree h c).2 = 0%nat /\
  forall h' : host FS, create_worktree h' c = create_worktree h c.
Proof.
  split; [now rewrite create_worktree_run|].
  split; [now rewrite create_worktree_run|].
  split; [now rewrite create_worktree_run|].
  split; [now rewrite create_worktree_run|].
  intros h'. now rewrite !create_worktree_run.
Qed.

(** What tells the two ways of reading apart is [return], here on its
    own: sourced, it leaves the file; in a program it is an error with
    status 2 and the next command would be executed. *)
Example return_when_sourced :
  builtin_return ["1"] laptop (at_repo [] ∅ [])
  = (Returned 1, at_repo [] ∅ [], []).
Proof. reflexivity. Qed.

Example return_in_a_program :
  builtin_return ["1"] laptop (with_sourced false (at_repo [] ∅ []))
  = (Done tt,
     {| sh := set_last 2 (sh (with_sourced false (at_repo [] ∅ [])));
        fs := [] |},
     [Err "return: can only `return' from a function or sourced script"]).
Proof. reflexivity. Qed.

